(** * Cache validation in http-cache-demo (src/app.js)

    A shallow embedding of the Express server of [src/app.js]: the three
    routes [/test.css] (forced cache), [/test.js] (Last-Modified /
    If-Modified-Since) and [/cache_policy.jpeg] (Etag / If-None-Match),
    together with the pieces of Node they rely on: [crypto.createHash("sha1")]
    with [digest("hex")], [Date.prototype.toUTCString], [fs.statSync],
    [fs.readFile] and [fs.createReadStream]. *)

From Stdlib Require Import ZArith List String Ascii Bool Lia.
Import ListNotations.
Open Scope Z_scope.

(** ** SHA-1, as computed by [crypto.createHash("sha1")] *)

Module Sha1.

Definition w32 (x : Z) : Z := Z.land x (Z.ones 32).
Definition add32 (a b : Z) : Z := w32 (a + b).
Definition rotl (n x : Z) : Z :=
  w32 (Z.lor (Z.shiftl x n) (Z.shiftr x (32 - n))).

(** [n] big-endian bytes of [x] (taken modulo [256^n]). *)
Fixpoint be_bytes (n : nat) (x : Z) : list Z :=
  match n with
  | O => []
  | S n' => be_bytes n' (Z.shiftr x 8) ++ [Z.land x 255]
  end.

(** Message padding: [0x80], zeros up to 56 mod 64, 64-bit bit length. *)
Definition pad (m : list Z) : list Z :=
  let len := Z.of_nat (List.length m) in
  m ++ [128] ++ repeat 0 (Z.to_nat ((55 - len) mod 64)) ++ be_bytes 8 (8 * len).

Fixpoint be_words (b : list Z) : list Z :=
  match b with
  | x0 :: x1 :: x2 :: x3 :: rest =>
      (x0 * 16777216 + x1 * 65536 + x2 * 256 + x3) :: be_words rest
  | _ => []
  end.

(** Message schedule, built newest-first: [r] holds [W(t-1); W(t-2); ...]. *)
Fixpoint extend (k : nat) (r : list Z) : list Z :=
  match k with
  | O => r
  | S k' =>
      extend k'
        (rotl 1 (Z.lxor (Z.lxor (nth 2 r 0) (nth 7 r 0))
                        (Z.lxor (nth 13 r 0) (nth 15 r 0))) :: r)
  end.

Definition schedule (block : list Z) : list Z :=
  rev (extend 64 (rev (be_words block))).

Record state := mk { h0 : Z; h1 : Z; h2 : Z; h3 : Z; h4 : Z }.

Definition init : state :=
  mk 0x67452301 0xEFCDAB89 0x98BADCFE 0x10325476 0xC3D2E1F0.

Definition f_k (t : nat) (b c d : Z) : Z * Z :=
  if (t <? 20)%nat then (Z.lor (Z.land b c) (Z.land (Z.lnot b) d), 0x5A827999)
  else if (t <? 40)%nat then (Z.lxor (Z.lxor b c) d, 0x6ED9EBA1)
  else if (t <? 60)%nat then
    (Z.lor (Z.lor (Z.land b c) (Z.land b d)) (Z.land c d), 0x8F1BBCDC)
  else (Z.lxor (Z.lxor b c) d, 0xCA62C1D6).

Definition round (s : state) (tw : nat * Z) : state :=
  let '(t, w) := tw in
  let '(f, k) := f_k t (h1 s) (h2 s) (h3 s) in
  mk (add32 (add32 (add32 (add32 (rotl 5 (h0 s)) f) (h4 s)) k) w)
     (h0 s) (rotl 30 (h1 s)) (h2 s) (h3 s).

Definition compress (s : state) (block : list Z) : state :=
  let s' := fold_left round (combine (seq 0 80) (schedule block)) s in
  mk (add32 (h0 s) (h0 s')) (add32 (h1 s) (h1 s')) (add32 (h2 s) (h2 s'))
     (add32 (h3 s) (h3 s')) (add32 (h4 s) (h4 s')).

Fixpoint blocks (fuel : nat) (s : state) (m : list Z) : state :=
  match fuel, m with
  | O, _ | _, [] => s
  | S f, _ => blocks f (compress s (firstn 64 m)) (skipn 64 m)
  end.

Definition digest_words (m : list Z) : state :=
  let p := pad m in blocks (List.length p) init p.

Definition digest_bytes (s : state) : list Z :=
  be_bytes 4 (h0 s) ++ be_bytes 4 (h1 s) ++ be_bytes 4 (h2 s)
  ++ be_bytes 4 (h3 s) ++ be_bytes 4 (h4 s).

Definition of_byte (b : Byte.byte) : Z := Z.of_N (Byte.to_N b).

Definition sha1 (m : list Byte.byte) : list Z :=
  digest_bytes (digest_words (map of_byte m)).

End Sha1.

(** ** Hex encoding, as [digest("hex")] (lowercase) *)

Definition hex_chars : string := "0123456789abcdef".

Definition hex_digit (n : Z) : ascii :=
  match String.get (Z.to_nat n) hex_chars with Some c => c | None => "0"%char end.

Fixpoint hex (bs : list Z) : string :=
  match bs with
  | [] => EmptyString
  | b :: rest => String (hex_digit (b / 16)) (String (hex_digit (b mod 16)) (hex rest))
  end.

(** Node's [crypto.Hash] object: [update] feeds more input, [digest] hashes
    everything fed so far. *)
Record Hash := { hash_input : list Byte.byte }.

Definition createHash_sha1 : Hash := {| hash_input := [] |}.
Definition hash_update (h : Hash) (chunk : list Byte.byte) : Hash :=
  {| hash_input := hash_input h ++ chunk |}.
Definition hash_digest_hex (h : Hash) : string := hex (Sha1.sha1 (hash_input h)).

Example sha1_abc :
  hash_digest_hex (hash_update createHash_sha1 (list_byte_of_string "abc"))
  = "a9993e364706816aba3e25717850c26c9cd0d89d"%string.
Proof. vm_compute. reflexivity. Qed.

Example sha1_empty :
  hash_digest_hex createHash_sha1 = "da39a3ee5e6b4b0d3255bfef95601890afd80709"%string.
Proof. vm_compute. reflexivity. Qed.

Example sha1_100a :
  hash_digest_hex (hash_update createHash_sha1 (repeat Byte.x61 100))
  = "7f9000257a4918d7072655ea468540cdcbd42e0c"%string.
Proof. vm_compute. reflexivity. Qed.

(** ** [new Date(t).toUTCString()] for a time value [t] in milliseconds *)

Module UTC.

Definition msPerDay : Z := 86400000.

(** Proleptic Gregorian calendar date of day number [z] (day 0 is
    1970-01-01): [(year, month 1..12, day 1..31)]. *)
Definition civil_from_days (z0 : Z) : Z * Z * Z :=
  let z := z0 + 719468 in
  let era := z / 146097 in
  let doe := z - era * 146097 in
  let yoe := (doe - doe / 1460 + doe / 36524 - doe / 146096) / 365 in
  let doy := doe - (365 * yoe + yoe / 4 - yoe / 100) in
  let mp := (5 * doy + 2) / 153 in
  let d := doy - (153 * mp + 2) / 5 + 1 in
  let m := if mp <? 10 then mp + 3 else mp - 9 in
  let y := yoe + era * 400 in
  (if m <=? 2 then y + 1 else y, m, d).

Definition digit (n : Z) : ascii := ascii_of_nat (48 + Z.to_nat n).

Fixpoint dec_go (fuel : nat) (n : Z) (acc : string) : string :=
  match fuel with
  | O => acc
  | S f =>
      let acc' := String (digit (n mod 10)) acc in
      if n <? 10 then acc' else dec_go f (n / 10) acc'
  end.

(** Decimal digits of a non-negative integer, left-padded with zeros to
    width [w]. *)
Definition dec_pad (w : nat) (n : Z) : string :=
  let s := dec_go 20 n EmptyString in
  (string_of_list_ascii (repeat "0"%char (w - String.length s)) ++ s)%string.

Definition day_name (wd : Z) : string :=
  nth (Z.to_nat wd) ["Sun"; "Mon"; "Tue"; "Wed"; "Thu"; "Fri"; "Sat"]%string ""%string.

Definition month_name (m : Z) : string :=
  nth (Z.to_nat (m - 1))
    ["Jan"; "Feb"; "Mar"; "Apr"; "May"; "Jun";
     "Jul"; "Aug"; "Sep"; "Oct"; "Nov"; "Dec"]%string ""%string.

Definition year_string (y : Z) : string :=
  if 0 <=? y then dec_pad 4 y else ("-" ++ dec_pad 4 (- y))%string.

(** Time values outside [-8.64e15, 8.64e15] make an Invalid Date. *)
Definition toUTCString (t : Z) : string :=
  if 8640000000000000 <? Z.abs t then "Invalid Date"%string
  else
    let day := t / msPerDay in
    let ms := t mod msPerDay in
    let '(y, m, d) := civil_from_days day in
    (day_name ((day + 4) mod 7) ++ ", " ++ dec_pad 2 d ++ " " ++ month_name m
     ++ " " ++ year_string y ++ " " ++ dec_pad 2 (ms / 3600000) ++ ":"
     ++ dec_pad 2 ((ms / 60000) mod 60) ++ ":" ++ dec_pad 2 ((ms / 1000) mod 60)
     ++ " GMT")%string.

End UTC.

Example utc_spec_scenario :
  UTC.toUTCString 1652266130000 = "Wed, 11 May 2022 10:48:50 GMT"%string.
Proof. vm_compute. reflexivity. Qed.

Example utc_subsecond :
  UTC.toUTCString 1652266130999 = "Wed, 11 May 2022 10:48:50 GMT"%string.
Proof. vm_compute. reflexivity. Qed.

Example utc_epoch : UTC.toUTCString 0 = "Thu, 01 Jan 1970 00:00:00 GMT"%string.
Proof. vm_compute. reflexivity. Qed.

Example utc_negative : UTC.toUTCString (-1) = "Wed, 31 Dec 1969 23:59:59 GMT"%string.
Proof. vm_compute. reflexivity. Qed.

Example utc_leap : UTC.toUTCString 951782400000 = "Tue, 29 Feb 2000 00:00:00 GMT"%string.
Proof. vm_compute. reflexivity. Qed.

(** ** The file system seen by the server *)

Inductive errno := ENOENT | EIO.

Inductive result (A : Type) : Type :=
| Ok (a : A)
| Err (e : errno).
Arguments Ok {A} a.
Arguments Err {A} e.

Definition is_ok {A} (r : result A) : bool :=
  match r with Ok _ => true | Err _ => false end.

(** What [fs.statSync] reports (times are millisecond time values). *)
Record Stats := { mtime : Z; ctime : Z; mode : Z }.

(** A stored file: its bytes, its metadata, and an optional disk fault: with
    [fault = Some k] every read fails with [EIO] after delivering [k] bytes. *)
Record inode := { data : list Byte.byte; stats : Stats; fault : option nat }.

(** One snapshot of the storage, keyed by the path the code passes.  The
    process working directory is fixed, so [path.resolve(p)] and [p] name
    the same file. *)
Definition FS := string -> option inode.

Definition resolve (p : string) : string := p.

Definition statSync (fs : FS) (p : string) : result Stats :=
  match fs p with None => Err ENOENT | Some i => Ok (stats i) end.

Definition readFile (fs : FS) (p : string) : result (list Byte.byte) :=
  match fs p with
  | None => Err ENOENT
  | Some i => match fault i with None => Ok (data i) | Some _ => Err EIO end
  end.

(** [fs.createReadStream]: the ['data'] chunks (of [highWaterMark] bytes),
    then either ['end'] ([stream_error = None]) or ['error']. *)
Definition highWaterMark : nat := Nat.pow 2 16.

Fixpoint chunks_go (fuel : nat) (l : list Byte.byte) : list (list Byte.byte) :=
  match fuel, l with
  | O, _ | _, [] => []
  | S f, _ => firstn highWaterMark l :: chunks_go f (skipn highWaterMark l)
  end.

Definition chunks (l : list Byte.byte) : list (list Byte.byte) :=
  chunks_go (List.length l) l.

Record stream_events := { stream_chunks : list (list Byte.byte); stream_error : option errno }.

Definition createReadStream (fs : FS) (p : string) : stream_events :=
  match fs p with
  | None => {| stream_chunks := []; stream_error := Some ENOENT |}
  | Some i =>
      match fault i with
      | None => {| stream_chunks := chunks (data i); stream_error := None |}
      | Some k => {| stream_chunks := chunks (firstn k (data i)); stream_error := Some EIO |}
      end
  end.

(** ** Programs that touch storage *)

Inductive io (A : Type) : Type :=
| Ret (a : A)
| StatSync (p : string) (k : result Stats -> io A)
| ReadFile (p : string) (k : result (list Byte.byte) -> io A)
| ReadStream (p : string) (k : stream_events -> io A).
Arguments Ret {A} a.
Arguments StatSync {A} p k.
Arguments ReadFile {A} p k.
Arguments ReadStream {A} p k.

Fixpoint bind {A B} (m : io A) (f : A -> io B) : io B :=
  match m with
  | Ret a => f a
  | StatSync p k => StatSync p (fun r => bind (k r) f)
  | ReadFile p k => ReadFile p (fun r => bind (k r) f)
  | ReadStream p k => ReadStream p (fun r => bind (k r) f)
  end.

Notation "x <- m ;; k" := (bind m (fun x => k)) (at level 61, m at next level, right associativity).

Inductive op := OpStat | OpReadFile | OpReadStream.

(** One storage access: which operation, on which path, and whether it
    succeeded. *)
Record event := { ev_op : op; ev_path : string; ev_ok : bool }.

(** Run a program against a storage that may change while the request is
    in flight: the [n]-th storage access sees snapshot [env n].  Returns the
    program's value and the trace of storage accesses. *)
Fixpoint run {A} (env : nat -> FS) (n : nat) (m : io A) : A * list event :=
  match m with
  | Ret a => (a, [])
  | StatSync p k =>
      let r := statSync (env n) p in
      let '(a, tr) := run env (S n) (k r) in
      (a, {| ev_op := OpStat; ev_path := p; ev_ok := is_ok r |} :: tr)
  | ReadFile p k =>
      let r := readFile (env n) p in
      let '(a, tr) := run env (S n) (k r) in
      (a, {| ev_op := OpReadFile; ev_path := p; ev_ok := is_ok r |} :: tr)
  | ReadStream p k =>
      let r := createReadStream (env n) p in
      let '(a, tr) := run env (S n) (k r) in
      (a, {| ev_op := OpReadStream; ev_path := p;
             ev_ok := match stream_error r with None => true | Some _ => false end |} :: tr)
  end.

(** ** Requests and responses *)

Definition lower_char (c : ascii) : ascii :=
  let n := nat_of_ascii c in
  if andb (Nat.leb 65 n) (Nat.leb n 90) then ascii_of_nat (n + 32) else c.

Fixpoint lower (s : string) : string :=
  match s with
  | EmptyString => EmptyString
  | String c s' => String (lower_char c) (lower s')
  end.

Fixpoint assoc (k : string) (l : list (string * string)) : option string :=
  match l with
  | [] => None
  | (k', v) :: l' => if String.eqb k k' then Some v else assoc k l'
  end.

(** [req.headers]: Node lower-cases incoming header names. *)
Record request := { req_headers : list (string * string) }.

Definition req_header (req : request) (name : string) : option string :=
  assoc name (req_headers req).

(** [x === s] where [x] is a header value or [undefined]. *)
Definition strict_eq (x : option string) (s : string) : bool :=
  match x with Some v => String.eqb v s | None => false end.

Record response := { statusCode : Z; headers : list (string * string); body : list Byte.byte }.

Definition res0 : response := {| statusCode := 200; headers := []; body := [] |}.

(** [res.setHeader]: names are case-insensitive; a new value replaces the
    old one. *)
Definition setHeader (name v : string) (r : response) : response :=
  {| statusCode := statusCode r;
     headers := (lower name, v)
                :: filter (fun kv => negb (String.eqb (fst kv) (lower name))) (headers r);
     body := body r |}.

Definition getHeader (name : string) (r : response) : option string :=
  assoc (lower name) (headers r).

Definition setStatus (code : Z) (r : response) : response :=
  {| statusCode := code; headers := headers r; body := body r |}.

(** [res.write] / [res.end(data)] (with [[]] for [res.end()]). *)
Definition res_write (r : response) (d : list Byte.byte) : response :=
  {| statusCode := statusCode r; headers := headers r; body := body r ++ d |}.

(** How a handler finishes. *)
Inductive outcome :=
| Sent (r : response)
  (** the response was ended and sent *)
| Rejected (e : errno) (r : response)
  (** the async handler threw before responding; [r] is the unsent state *)
| Aborted (e : errno) (r : response).
  (** the piped read stream emitted ['error'] after the response was begun;
      [r] holds what was written, the response is never ended *)

(** ** The helpers of app.js *)

Definition asyncReadFile (filePath : string) : io (result (list Byte.byte)) :=
  ReadFile (resolve filePath) Ret.

Definition getFileHash (filePath : string) : io (result string) :=
  ReadStream (resolve filePath) (fun ev =>
    let hash := fold_left hash_update (stream_chunks ev) createHash_sha1 in
    Ret (match stream_error ev with
         | Some err => Err err
         | None => Ok (hash_digest_hex hash)
         end)).

(** ** The routes *)

(** [app.get("/test.css")]: forced cache. *)
Definition test_css (_req : request) : io outcome :=
  cssContents <- asyncReadFile "./assets/test.css" ;;
  match cssContents with
  | Err e => Ret (Rejected e res0)
  | Ok c =>
      let r := setHeader "Cache-Control" "public,max-age=30"
                 (setHeader "Content-Type" "text/css" res0) in
      Ret (Sent (res_write r c))
  end.

(** [app.get("/test.js")]: Last-Modified / If-Modified-Since. *)
Definition test_js (req : request) : io outcome :=
  StatSync "./assets/test.js" (fun stat =>
  match stat with
  | Err e => Ret (Rejected e res0)
  | Ok st =>
      let ctime := UTC.toUTCString (ctime st) in
      let r := setHeader "Last-Modified" ctime
                 (setHeader "Content-Type" "text/javascript" res0) in
      let ifModefiedSince := req_header req "if-modified-since" in
      if strict_eq ifModefiedSince ctime then Ret (Sent (res_write (setStatus 304 r) []))
      else
        jsContents <- asyncReadFile "./assets/test.js" ;;
        match jsContents with
        | Err e => Ret (Rejected e r)
        | Ok c => Ret (Sent (res_write r c))
        end
  end).

(** [app.get("/cache_policy.jpeg")]: Etag / If-None-Match with a 10 s
    forced-cache window. *)
Definition cache_policy_jpeg (req : request) : io outcome :=
  let r0 := setHeader "Content-Type" "image/jpeg" res0 in
  let filePath := "./assets/cache_policy.jpeg"%string in
  fileHash <- getFileHash filePath ;;
  match fileHash with
  | Err e => Ret (Rejected e r0)
  | Ok fileHash =>
      let ifNoneMatch := req_header req "if-none-match" in
      let r := setHeader "Cache-Control" "public, max-age=10"
                 (setHeader "Etag" fileHash r0) in
      if strict_eq ifNoneMatch fileHash then Ret (Sent (res_write (setStatus 304 r) []))
      else
        ReadStream filePath (fun imgStream =>
          match stream_error imgStream with
          | None => Ret (Sent (res_write r (List.concat (stream_chunks imgStream))))
          | Some e => Ret (Aborted e (res_write r (List.concat (stream_chunks imgStream))))
          end)
  end.

(** [app.get("/")]: the page that loads the other assets, sent without any
    cache header. *)
Definition root (_req : request) : io outcome :=
  htmlContents <- asyncReadFile "./assets/index.html" ;;
  match htmlContents with
  | Err e => Ret (Rejected e res0)
  | Ok c => Ret (Sent (res_write (setHeader "Content-Type" "text/html" res0) c))
  end.

(** Running a handler on an unchanging storage. *)
Definition serve (fs : FS) (h : request -> io outcome) (req : request) : outcome :=
  fst (run (fun _ => fs) 0 (h req)).

(** ** A concrete storage for the scenarios of the spec *)

Definition js_path : string := "./assets/test.js".
Definition index_path : string := "./assets/index.html".
Definition css_path : string := "./assets/test.css".
Definition jpeg_path : string := "./assets/cache_policy.jpeg".

Definition mk_file (d : string) (t : Z) : inode :=
  {| data := list_byte_of_string d; stats := {| mtime := t; ctime := t; mode := 420 |};
     fault := None |}.

Definition demo_fs (jpeg : string) : FS := fun p =>
  if String.eqb p js_path then Some (mk_file "console.log(1)" 1652266130000)
  else if String.eqb p css_path then Some (mk_file "body{color:red}" 1652266130000)
  else if String.eqb p jpeg_path then Some (mk_file jpeg 1652266130000)
  else None.

Definition req_plain : request := {| req_headers := [] |}.
Definition req_ims (v : string) : request := {| req_headers := [("if-modified-since", v)%string] |}.
Definition req_inm (v : string) : request := {| req_headers := [("if-none-match", v)%string] |}.

Example demo_js_304 :
  serve (demo_fs "x") test_js (req_ims "Wed, 11 May 2022 10:48:50 GMT")
  = Sent {| statusCode := 304;
            headers := [("last-modified", "Wed, 11 May 2022 10:48:50 GMT");
                        ("content-type", "text/javascript")]%string;
            body := [] |}.
Proof. vm_compute. reflexivity. Qed.

Example demo_js_older :
  exists r, serve (demo_fs "x") test_js (req_ims "Tue, 10 May 2022 10:48:50 GMT") = Sent r
  /\ statusCode r = 200 /\ body r = list_byte_of_string "console.log(1)".
Proof. eexists. vm_compute. split; [reflexivity | split; reflexivity]. Qed.

Example demo_css :
  serve (demo_fs "x") test_css req_plain
  = Sent {| statusCode := 200;
            headers := [("cache-control", "public,max-age=30"); ("content-type", "text/css")]%string;
            body := list_byte_of_string "body{color:red}" |}.
Proof. vm_compute. reflexivity. Qed.

Example demo_jpeg_304 :
  statusCode (match serve (demo_fs "abc") cache_policy_jpeg
                      (req_inm "a9993e364706816aba3e25717850c26c9cd0d89d") with
              | Sent r => r | _ => res0 end) = 304.
Proof. vm_compute. reflexivity. Qed.

(** The content digest the hash route sends as [Etag]. *)
Definition content_digest (d : list Byte.byte) : string := hex (Sha1.sha1 d).

(** A metadata-only change ([fs.chmod] at time [now]): bytes and [mtime]
    are kept, [ctime] becomes [now]. *)
Definition chmod (now m : Z) (i : inode) : inode :=
  {| data := data i;
     stats := {| mtime := mtime (stats i); ctime := now; mode := m |};
     fault := fault i |}.

Definition update (fs : FS) (p : string) (i : inode) : FS :=
  fun q => if String.eqb q p then Some i else fs q.

Arguments UTC.toUTCString : simpl never.
Arguments content_digest : simpl never.
Arguments hash_digest_hex : simpl never.
Arguments chunks : simpl never.

(** ** General lemmas *)

Lemma strict_eq_spec x s : strict_eq x s = true <-> x = Some s.
Proof.
  destruct x as [v|]; simpl; split; intro H; try discriminate.
  - apply String.eqb_eq in H; now subst.
  - injection H as ->; apply String.eqb_refl.
Qed.

Lemma highWaterMark_pos : (highWaterMark <> 0)%nat.
Proof. unfold highWaterMark; apply Nat.pow_nonzero; lia. Qed.

Lemma concat_chunks_go fuel l :
  (List.length l <= fuel)%nat -> List.concat (chunks_go fuel l) = l.
Proof.
  revert l; induction fuel as [|f IH]; intros l Hl.
  - destruct l; [reflexivity | simpl in Hl; lia].
  - destruct l as [|b l']; [reflexivity|].
    cbn [chunks_go List.concat].
    rewrite IH; [apply firstn_skipn|].
    rewrite length_skipn. pose proof highWaterMark_pos. cbn [List.length] in *. lia.
Qed.

Lemma concat_chunks l : List.concat (chunks l) = l.
Proof. unfold chunks; apply concat_chunks_go; lia. Qed.

Lemma fold_hash cs h :
  fold_left hash_update cs h = {| hash_input := hash_input h ++ List.concat cs |}.
Proof.
  revert h; induction cs as [|c cs IH]; intros [hi]; simpl.
  - now rewrite app_nil_r.
  - rewrite IH; simpl; now rewrite app_assoc.
Qed.

Lemma stream_digest d :
  hash_digest_hex (fold_left hash_update (chunks d) createHash_sha1) = content_digest d.
Proof. rewrite fold_hash, concat_chunks; reflexivity. Qed.

Lemma readStream_healthy fs p i :
  fs p = Some i -> fault i = None ->
  createReadStream fs p = {| stream_chunks := chunks (data i); stream_error := None |}.
Proof. unfold createReadStream; now intros -> ->. Qed.

(** ** Claims *)

(** C1: on [/test.js] with the file present and readable, the response is
    304 with an empty body exactly when [If-Modified-Since] is present and
    string-equal to [toUTCString] of the file's timestamp; otherwise it is
    200 with the whole file. *)
Theorem test_js_304_iff fs ino req
  (Hf : fs js_path = Some ino) (Hok : fault ino = None) :
  exists r, serve fs test_js req = Sent r /\
    (req_header req "if-modified-since" = Some (UTC.toUTCString (ctime (stats ino))) ->
       statusCode r = 304 /\ body r = []) /\
    (req_header req "if-modified-since" <> Some (UTC.toUTCString (ctime (stats ino))) ->
       statusCode r = 200 /\ body r = data ino).
Proof.
  unfold serve, test_js, js_path in *; cbn; unfold statSync; rewrite Hf.
  destruct (strict_eq (req_header req "if-modified-since")
                      (UTC.toUTCString (ctime (stats ino)))) eqn:E.
  - apply strict_eq_spec in E. eexists; split; [reflexivity|].
    split; intro H; [split; reflexivity | contradiction].
  - cbn; unfold readFile, resolve; rewrite Hf, Hok.
    eexists; split; [reflexivity|]; split; intro H.
    + apply strict_eq_spec in H; congruence.
    + split; reflexivity.
Qed.

Lemma test_js_304_iff_witness :
  exists r, serve (demo_fs "x") test_js (req_ims "Wed, 11 May 2022 10:48:50 GMT") = Sent r /\
    (req_header (req_ims "Wed, 11 May 2022 10:48:50 GMT") "if-modified-since"
       = Some (UTC.toUTCString (ctime (stats (mk_file "console.log(1)" 1652266130000)))) ->
       statusCode r = 304 /\ body r = []) /\
    (req_header (req_ims "Wed, 11 May 2022 10:48:50 GMT") "if-modified-since"
       <> Some (UTC.toUTCString (ctime (stats (mk_file "console.log(1)" 1652266130000)))) ->
       statusCode r = 200 /\ body r = data (mk_file "console.log(1)" 1652266130000)).
Proof. apply test_js_304_iff; reflexivity. Defined.

(** C2: on [/cache_policy.jpeg] with the file present and readable, the
    response is 304 with an empty body exactly when [If-None-Match] equals
    the SHA-1 hex digest of the file; otherwise it is 200 with the whole
    file. *)
Theorem jpeg_304_iff fs ino req
  (Hf : fs jpeg_path = Some ino) (Hok : fault ino = None) :
  exists r, serve fs cache_policy_jpeg req = Sent r /\
    (req_header req "if-none-match" = Some (content_digest (data ino)) ->
       statusCode r = 304 /\ body r = []) /\
    (req_header req "if-none-match" <> Some (content_digest (data ino)) ->
       statusCode r = 200 /\ body r = data ino).
Proof.
  unfold serve, cache_policy_jpeg, getFileHash, jpeg_path, resolve in *; cbn.
  rewrite (readStream_healthy _ _ _ Hf Hok); cbn.
  rewrite stream_digest.
  destruct (strict_eq (req_header req "if-none-match") (content_digest (data ino))) eqn:E.
  - apply strict_eq_spec in E. eexists; split; [reflexivity|].
    split; intro H; [split; reflexivity | contradiction].
  - cbn; rewrite (readStream_healthy _ _ _ Hf Hok); cbn.
    eexists; split; [reflexivity|]; split; intro H.
    + apply strict_eq_spec in H; congruence.
    + split; [reflexivity | apply concat_chunks].
Qed.

Lemma jpeg_304_iff_witness :
  exists r, serve (demo_fs "abc") cache_policy_jpeg (req_inm "a9993e364706816aba3e25717850c26c9cd0d89d") = Sent r /\
    (req_header (req_inm "a9993e364706816aba3e25717850c26c9cd0d89d") "if-none-match"
       = Some (content_digest (data (mk_file "abc" 1652266130000))) ->
       statusCode r = 304 /\ body r = []) /\
    (req_header (req_inm "a9993e364706816aba3e25717850c26c9cd0d89d") "if-none-match"
       <> Some (content_digest (data (mk_file "abc" 1652266130000))) ->
       statusCode r = 200 /\ body r = data (mk_file "abc" 1652266130000)).
Proof. apply jpeg_304_iff; reflexivity. Defined.

Lemma readStream_ok_inv fs p ev :
  createReadStream fs p = ev -> stream_error ev = None ->
  exists i, fs p = Some i /\ fault i = None /\ stream_chunks ev = chunks (data i).
Proof.
  unfold createReadStream; intros <-.
  destruct (fs p) as [i|]; [|discriminate].
  destruct (fault i) eqn:F; [discriminate|]. intros _; now exists i.
Qed.

Definition read_event (p : string) : event :=
  {| ev_op := OpReadStream; ev_path := p; ev_ok := true |}.

Definition snapshots (fs0 fs1 : FS) : nat -> FS :=
  fun n => if Nat.eqb n 0 then fs0 else fs1.

(** The response to a plain request when the image changes from ["abc"]
    to ["abd"] between the first and the second read. *)
Definition jpeg_changed_response : response :=
  {| statusCode := 200;
     headers := [("cache-control", "public, max-age=10");
                 ("etag", content_digest (list_byte_of_string "abc"));
                 ("content-type", "image/jpeg")]%string;
     body := list_byte_of_string "abd" |}.

(** C3 (counterexample): a request without [If-None-Match] reads the image
    twice, and when the file changes between the two reads, the body served
    is not the content that was hashed into the [Etag]. *)
Lemma jpeg_single_read_counterexample :
  run (snapshots (demo_fs "abc") (demo_fs "abd")) 0 (cache_policy_jpeg req_plain)
  = (Sent jpeg_changed_response, [read_event jpeg_path; read_event jpeg_path])
  /\ content_digest (list_byte_of_string "abc") <> content_digest (list_byte_of_string "abd").
Proof. split; vm_compute; [reflexivity | discriminate]. Qed.

(** C3 (amended): every storage access of [/cache_policy.jpeg] is a read
    stream of the image; a 304 reads it once (to hash it), a 200 reads it a
    second time and pipes what that second read yields. *)
Theorem jpeg_read_count env req r tr
  (Hrun : run env 0 (cache_policy_jpeg req) = (Sent r, tr)) :
  (statusCode r = 304 /\ tr = [read_event jpeg_path]) \/
  (statusCode r = 200 /\ tr = [read_event jpeg_path; read_event jpeg_path] /\
   exists i, env 1%nat jpeg_path = Some i /\ fault i = None /\ body r = data i).
Proof.
  unfold cache_policy_jpeg, getFileHash, resolve in Hrun; cbn in Hrun.
  destruct (createReadStream (env 0%nat) "./assets/cache_policy.jpeg") as [cs0 [e0|]] eqn:E0;
    cbn in Hrun; [discriminate|].
  destruct (strict_eq (req_header req "if-none-match")
                      (hash_digest_hex (fold_left hash_update cs0 createHash_sha1))).
  - cbn in Hrun. injection Hrun as <- <-. left; split; reflexivity.
  - cbn in Hrun.
    destruct (createReadStream (env 1%nat) "./assets/cache_policy.jpeg") as [cs1 [e1|]] eqn:E1;
      cbn in Hrun; [discriminate|].
    injection Hrun as <- <-. right; split; [reflexivity|]; split; [reflexivity|].
    destruct (readStream_ok_inv _ _ _ E1 eq_refl) as (i & Hi & Hfi & Hc).
    exists i; repeat split; try assumption.
    cbn in Hc |- *; rewrite Hc; apply concat_chunks.
Qed.

Lemma jpeg_read_count_witness :
  (statusCode jpeg_changed_response = 304 /\ [read_event jpeg_path; read_event jpeg_path] = [read_event jpeg_path]) \/
  (statusCode jpeg_changed_response = 200 /\
   [read_event jpeg_path; read_event jpeg_path] = [read_event jpeg_path; read_event jpeg_path] /\
   exists i, snapshots (demo_fs "abc") (demo_fs "abd") 1%nat jpeg_path = Some i /\ fault i = None /\
     body jpeg_changed_response = data i).
Proof.
  apply (jpeg_read_count (snapshots (demo_fs "abc") (demo_fs "abd")) req_plain).
  vm_compute. reflexivity.
Defined.

(** C4 (counterexample): with [test.js] absent the handler rejects with
    [ENOENT] before touching the response: no 404 is ever sent. *)
Lemma missing_resource_404_counterexample :
  serve (fun p => if String.eqb p js_path then None else demo_fs "x" p) test_js req_plain
  = Rejected ENOENT res0.
Proof. vm_compute. reflexivity. Qed.

Definition sent {A} (o : outcome) (f : response -> A) (d : A) : A :=
  match o with Sent r => f r | _ => d end.

(** C4 (amended): on both validated routes, if any storage access of the
    request fails, no response is sent at all (no 304, and no 404 or 500
    either): the handler rejects, or the piped second read aborts the
    begun response.  A file missing at the first access rejects with
    [ENOENT]. *)
Theorem validated_failures_not_sent env req h p o tr
  (Hh : (h = test_js /\ p = js_path) \/ (h = cache_policy_jpeg /\ p = jpeg_path))
  (Hrun : run env 0 (h req) = (o, tr)) :
  (In false (map ev_ok tr) -> sent o (fun _ => False) True) /\
  (env 0%nat p = None -> exists r, o = Rejected ENOENT r).
Proof.
  destruct Hh as [[-> ->] | [-> ->]].
  - unfold test_js, js_path, asyncReadFile, resolve in *; cbn in Hrun.
    unfold statSync in Hrun |- *.
    destruct (env 0%nat "./assets/test.js"%string) as [i0|] eqn:E0; cbn in Hrun.
    + split; [|discriminate].
      destruct (strict_eq _ _); cbn in Hrun.
      * injection Hrun as <- <-. intros [H|H]; [discriminate | contradiction].
      * destruct (readFile (env 1%nat) "./assets/test.js"%string) as [c|e] eqn:E1; cbn in Hrun;
          injection Hrun as <- <-; cbn; [|trivial].
        intros [H|[H|H]]; [discriminate | discriminate | contradiction].
    + injection Hrun as <- <-. split; [cbn; trivial | eauto].
  - unfold cache_policy_jpeg, getFileHash, jpeg_path, resolve in *; cbn in Hrun.
    destruct (createReadStream (env 0%nat) "./assets/cache_policy.jpeg") as [cs0 [e0|]] eqn:E0;
      cbn in Hrun.
    + injection Hrun as <- <-. split; [cbn; trivial|].
      unfold createReadStream in E0; intros Hn; rewrite Hn in E0.
      injection E0 as _ <-. eauto.
    + split.
      2:{ unfold createReadStream in E0; intros Hn; rewrite Hn in E0; discriminate. }
      destruct (strict_eq _ _); cbn in Hrun.
      * injection Hrun as <- <-. intros [H|H]; [discriminate | contradiction].
      * destruct (createReadStream (env 1%nat) "./assets/cache_policy.jpeg")
          as [cs1 [e1|]] eqn:E1; cbn in Hrun; injection Hrun as <- <-; cbn; [trivial|].
        intros [H|[H|H]]; [discriminate | discriminate | contradiction].
Qed.

Lemma validated_failures_not_sent_witness :
  (In false (map ev_ok [{| ev_op := OpStat; ev_path := js_path; ev_ok := false |}]) ->
     sent (Rejected ENOENT res0) (fun _ => False) True) /\
  ((fun p => if String.eqb p js_path then None else demo_fs "x" p) js_path = None ->
     exists r, Rejected ENOENT res0 = Rejected ENOENT r).
Proof.
  apply (validated_failures_not_sent
           (fun _ p => if String.eqb p js_path then None else demo_fs "x" p)
           req_plain test_js js_path).
  - left; split; reflexivity.
  - vm_compute. reflexivity.
Defined.

(** ** Shapes of the responses the validated routes send *)

Definition js_response (lm : string) : response :=
  setHeader "Last-Modified" lm (setHeader "Content-Type" "text/javascript" res0).

Definition jpeg_response (h : string) : response :=
  setHeader "Cache-Control" "public, max-age=10"
    (setHeader "Etag" h (setHeader "Content-Type" "image/jpeg" res0)).

Lemma test_js_serve fs ino req :
  fs js_path = Some ino -> fault ino = None ->
  serve fs test_js req =
    if strict_eq (req_header req "if-modified-since") (UTC.toUTCString (ctime (stats ino)))
    then Sent (res_write (setStatus 304 (js_response (UTC.toUTCString (ctime (stats ino))))) [])
    else Sent (res_write (js_response (UTC.toUTCString (ctime (stats ino)))) (data ino)).
Proof.
  intros Hf Hok. unfold serve, test_js, js_path in *; cbn; unfold statSync; rewrite Hf.
  destruct (strict_eq _ _); [reflexivity|].
  cbn; unfold readFile, resolve; rewrite Hf, Hok; reflexivity.
Qed.

Lemma jpeg_serve fs ino req :
  fs jpeg_path = Some ino -> fault ino = None ->
  serve fs cache_policy_jpeg req =
    if strict_eq (req_header req "if-none-match") (content_digest (data ino))
    then Sent (res_write (setStatus 304 (jpeg_response (content_digest (data ino)))) [])
    else Sent (res_write (jpeg_response (content_digest (data ino))) (data ino)).
Proof.
  intros Hf Hok.
  unfold serve, cache_policy_jpeg, getFileHash, jpeg_path, resolve in *; cbn.
  rewrite (readStream_healthy _ _ _ Hf Hok); cbn; rewrite stream_digest.
  destruct (strict_eq _ _); [reflexivity|].
  cbn; rewrite (readStream_healthy _ _ _ Hf Hok); cbn; rewrite concat_chunks; reflexivity.
Qed.

Lemma test_js_sent env req r tr :
  run env 0 (test_js req) = (Sent r, tr) ->
  exists st, statSync (env 0%nat) js_path = Ok st /\
    (r = res_write (setStatus 304 (js_response (UTC.toUTCString (ctime st)))) [] \/
     exists d, r = res_write (js_response (UTC.toUTCString (ctime st))) d).
Proof.
  unfold test_js, asyncReadFile, resolve, js_path; cbn; intro Hrun.
  destruct (statSync (env 0%nat) "./assets/test.js"%string) as [st|e]; cbn in Hrun;
    [|discriminate].
  exists st; split; [reflexivity|].
  destruct (strict_eq _ _); cbn in Hrun.
  - injection Hrun as <- _. left; reflexivity.
  - destruct (readFile (env 1%nat) "./assets/test.js"%string) as [c|e]; cbn in Hrun;
      [|discriminate].
    injection Hrun as <- _. right; eauto.
Qed.

Lemma jpeg_sent env req r tr :
  run env 0 (cache_policy_jpeg req) = (Sent r, tr) ->
  exists i, env 0%nat jpeg_path = Some i /\
    (r = res_write (setStatus 304 (jpeg_response (content_digest (data i)))) [] \/
     exists d, r = res_write (jpeg_response (content_digest (data i))) d).
Proof.
  unfold cache_policy_jpeg, getFileHash, resolve, jpeg_path; cbn; intro Hrun.
  destruct (createReadStream (env 0%nat) "./assets/cache_policy.jpeg") as [cs0 [e0|]] eqn:E0;
    cbn in Hrun; [discriminate|].
  destruct (readStream_ok_inv _ _ _ E0 eq_refl) as (i & Hi & _ & Hc).
  cbn in Hc; subst cs0; rewrite stream_digest in Hrun.
  exists i; split; [exact Hi|].
  destruct (strict_eq _ _); cbn in Hrun.
  - injection Hrun as <- _. left; reflexivity.
  - destruct (createReadStream (env 1%nat) "./assets/cache_policy.jpeg") as [cs1 [e1|]];
      cbn in Hrun; [discriminate|].
    injection Hrun as <- _. right; eauto.
Qed.

(** C5: [/test.css] never looks at the request, and with the file present
    and readable it always answers 200 with the whole file and
    [Cache-Control: public,max-age=30]. *)
Theorem test_css_forced env fs ino req1 req2
  (Hf : fs css_path = Some ino) (Hok : fault ino = None) :
  run env 0 (test_css req1) = run env 0 (test_css req2) /\
  serve fs test_css req1
  = Sent {| statusCode := 200;
            headers := [("cache-control", "public,max-age=30"); ("content-type", "text/css")]%string;
            body := data ino |}.
Proof.
  split; [reflexivity|].
  unfold serve, test_css, asyncReadFile, resolve, css_path in *; cbn.
  unfold readFile; rewrite Hf, Hok; reflexivity.
Qed.

Lemma test_css_forced_witness :
  run (fun _ => demo_fs "x") 0 (test_css req_plain)
  = run (fun _ => demo_fs "x") 0 (test_css (req_ims "Wed, 11 May 2022 10:48:50 GMT")) /\
  serve (demo_fs "x") test_css req_plain
  = Sent {| statusCode := 200;
            headers := [("cache-control", "public,max-age=30"); ("content-type", "text/css")]%string;
            body := data (mk_file "body{color:red}" 1652266130000) |}.
Proof. apply test_css_forced; reflexivity. Defined.

(** C6: every response sent by [/test.js] (200 or 304) carries
    [Last-Modified] with the [toUTCString] of the timestamp it read, and
    every response sent by [/cache_policy.jpeg] (200 or 304) carries [ETag]
    with the digest of the content it hashed. *)
Theorem validator_header_always env req :
  (forall r tr, run env 0 (test_js req) = (Sent r, tr) ->
     exists st, statSync (env 0%nat) js_path = Ok st /\
       (statusCode r = 200 \/ statusCode r = 304) /\
       getHeader "Last-Modified" r = Some (UTC.toUTCString (ctime st))) /\
  (forall r tr, run env 0 (cache_policy_jpeg req) = (Sent r, tr) ->
     exists i, env 0%nat jpeg_path = Some i /\
       (statusCode r = 200 \/ statusCode r = 304) /\
       getHeader "ETag" r = Some (content_digest (data i))).
Proof.
  split; intros r tr Hrun.
  - destruct (test_js_sent _ _ _ _ Hrun) as (st & Hst & [-> | [d ->]]);
      exists st; repeat split; auto.
  - destruct (jpeg_sent _ _ _ _ Hrun) as (i & Hi & [-> | [d ->]]);
      exists i; repeat split; auto.
Qed.

Lemma validator_header_always_witness :
  (exists st, statSync (fun p => if String.eqb p js_path then demo_fs "x" p else None) js_path = Ok st /\
     (statusCode (res_write (js_response "Wed, 11 May 2022 10:48:50 GMT") (list_byte_of_string "console.log(1)")) = 200 \/
      statusCode (res_write (js_response "Wed, 11 May 2022 10:48:50 GMT") (list_byte_of_string "console.log(1)")) = 304) /\
     getHeader "Last-Modified" (res_write (js_response "Wed, 11 May 2022 10:48:50 GMT") (list_byte_of_string "console.log(1)"))
     = Some (UTC.toUTCString (ctime st))) /\
  (exists i, demo_fs "abc" jpeg_path = Some i /\
     (statusCode (res_write (setStatus 304 (jpeg_response (content_digest (list_byte_of_string "abc")))) []) = 200 \/
      statusCode (res_write (setStatus 304 (jpeg_response (content_digest (list_byte_of_string "abc")))) []) = 304) /\
     getHeader "ETag" (res_write (setStatus 304 (jpeg_response (content_digest (list_byte_of_string "abc")))) [])
     = Some (content_digest (data i))).
Proof.
  split.
  - (* a storage holding test.js only *)
    apply (proj1 (validator_header_always
                    (fun _ p => if String.eqb p js_path then demo_fs "x" p else None) req_plain)
             _ [{| ev_op := OpStat; ev_path := js_path; ev_ok := true |};
                {| ev_op := OpReadFile; ev_path := js_path; ev_ok := true |}]).
    vm_compute; reflexivity.
  - apply (proj2 (validator_header_always (fun _ => demo_fs "abc")
                    (req_inm "a9993e364706816aba3e25717850c26c9cd0d89d"))
             _ [read_event jpeg_path]).
    vm_compute; reflexivity.
Defined.

(** C7: a request without conditional headers gets a 200 whose validator
    ([Last-Modified] on [/test.js], [ETag] on [/cache_policy.jpeg]), echoed
    back in [If-Modified-Since] / [If-None-Match] against the same storage,
    gets a 304.  Each route needs only its own file. *)
Theorem round_trip fs req :
  (forall ijs, fs js_path = Some ijs -> fault ijs = None ->
     req_header req "if-modified-since" = None ->
     exists r v, serve fs test_js req = Sent r /\ statusCode r = 200 /\ body r = data ijs /\
       getHeader "Last-Modified" r = Some v /\
       forall req', req_header req' "if-modified-since" = Some v ->
         exists r', serve fs test_js req' = Sent r' /\ statusCode r' = 304 /\ body r' = []) /\
  (forall ijpeg, fs jpeg_path = Some ijpeg -> fault ijpeg = None ->
     req_header req "if-none-match" = None ->
     exists r v, serve fs cache_policy_jpeg req = Sent r /\ statusCode r = 200 /\ body r = data ijpeg /\
       getHeader "ETag" r = Some v /\
       forall req', req_header req' "if-none-match" = Some v ->
         exists r', serve fs cache_policy_jpeg req' = Sent r' /\ statusCode r' = 304 /\ body r' = []).
Proof.
  split.
  - intros ijs Hjs Hjs_ok Hims.
    rewrite (test_js_serve _ _ _ Hjs Hjs_ok), Hims; cbn.
    do 2 eexists; repeat split.
    intros req' H'. rewrite (test_js_serve _ _ _ Hjs Hjs_ok), H'.
    rewrite (proj2 (strict_eq_spec _ _) eq_refl). eexists; repeat split.
  - intros ijpeg Hjp Hjp_ok Hinm.
    rewrite (jpeg_serve _ _ _ Hjp Hjp_ok), Hinm; cbn.
    do 2 eexists; repeat split.
    intros req' H'. rewrite (jpeg_serve _ _ _ Hjp Hjp_ok), H'.
    rewrite (proj2 (strict_eq_spec _ _) eq_refl). eexists; repeat split.
Qed.

Lemma round_trip_witness :
  (exists r v, serve (fun p => if String.eqb p js_path then demo_fs "x" p else None) test_js req_plain
       = Sent r /\ statusCode r = 200 /\
     body r = data (mk_file "console.log(1)" 1652266130000) /\
     getHeader "Last-Modified" r = Some v /\
     forall req', req_header req' "if-modified-since" = Some v ->
       exists r', serve (fun p => if String.eqb p js_path then demo_fs "x" p else None) test_js req'
         = Sent r' /\ statusCode r' = 304 /\ body r' = []) /\
  (exists r v, serve (fun p => if String.eqb p jpeg_path then demo_fs "abc" p else None)
       cache_policy_jpeg req_plain = Sent r /\ statusCode r = 200 /\
     body r = data (mk_file "abc" 1652266130000) /\
     getHeader "ETag" r = Some v /\
     forall req', req_header req' "if-none-match" = Some v ->
       exists r', serve (fun p => if String.eqb p jpeg_path then demo_fs "abc" p else None)
         cache_policy_jpeg req' = Sent r' /\ statusCode r' = 304 /\ body r' = []).
Proof.
  split.
  - (* a storage holding test.js only *)
    apply (proj1 (round_trip (fun p => if String.eqb p js_path then demo_fs "x" p else None) req_plain));
      reflexivity.
  - (* a storage holding cache_policy.jpeg only *)
    apply (proj2 (round_trip (fun p => if String.eqb p jpeg_path then demo_fs "abc" p else None) req_plain));
      reflexivity.
Defined.

(** ** Digest lemmas *)

Lemma length_be_bytes n x : List.length (Sha1.be_bytes n x) = n.
Proof.
  revert x; induction n as [|n IH]; intro x; [reflexivity|].
  cbn [Sha1.be_bytes]; rewrite length_app, IH; cbn; lia.
Qed.

Lemma length_sha1 m : List.length (Sha1.sha1 m) = 20%nat.
Proof.
  unfold Sha1.sha1, Sha1.digest_bytes.
  rewrite !length_app, !length_be_bytes; reflexivity.
Qed.

Lemma length_hex bs : String.length (hex bs) = (2 * List.length bs)%nat.
Proof. induction bs as [|b bs IH]; cbn [hex String.length List.length]; lia. Qed.

Lemma get_in n s c : String.get n s = Some c -> In c (list_ascii_of_string s).
Proof.
  revert n; induction s as [|c' s IH]; intros n H; [discriminate|].
  destruct n as [|n]; cbn in H |- *.
  - injection H as ->; now left.
  - right; exact (IH n H).
Qed.

Lemma hex_digit_in n : In (hex_digit n) (list_ascii_of_string hex_chars).
Proof.
  unfold hex_digit; destruct (String.get (Z.to_nat n) hex_chars) as [c|] eqn:E.
  - exact (get_in _ _ _ E).
  - now left.
Qed.

Lemma hex_chars_in bs c :
  In c (list_ascii_of_string (hex bs)) -> In c (list_ascii_of_string hex_chars).
Proof.
  induction bs as [|b bs IH]; cbn [hex list_ascii_of_string In]; [tauto|].
  intros [<- | [<- | H]]; auto using hex_digit_in.
Qed.

(** C8: [getFileHash] is a function of the file's bytes alone: two
    storages holding the same bytes (whatever their metadata) give the same
    digest, the digest does not depend on how the bytes are split into
    stream chunks, and it is always 40 lowercase hex digits. *)
Theorem digest_deterministic fs1 fs2 p i1 i2
  (H1 : fs1 p = Some i1) (H2 : fs2 p = Some i2)
  (Hok1 : fault i1 = None) (Hok2 : fault i2 = None) (Hd : data i1 = data i2) :
  exists h,
    fst (run (fun _ => fs1) 0 (getFileHash p)) = Ok h /\
    fst (run (fun _ => fs2) 0 (getFileHash p)) = Ok h /\
    (forall cs, List.concat cs = data i1 ->
       hash_digest_hex (fold_left hash_update cs createHash_sha1) = h) /\
    String.length h = 40%nat /\
    (forall c, In c (list_ascii_of_string h) -> In c (list_ascii_of_string hex_chars)).
Proof.
  exists (content_digest (data i1)).
  unfold getFileHash, resolve; cbn.
  rewrite (readStream_healthy _ _ _ H1 Hok1), (readStream_healthy _ _ _ H2 Hok2); cbn.
  rewrite !stream_digest, Hd.
  split; [reflexivity|]; split; [reflexivity|]; split; [|split].
  - intros cs Hcs. rewrite fold_hash; cbn; rewrite Hcs; reflexivity.
  - unfold content_digest; rewrite length_hex, length_sha1; reflexivity.
  - unfold content_digest; apply hex_chars_in.
Qed.

Lemma digest_deterministic_witness :
  exists h,
    fst (run (fun _ => demo_fs "abc") 0 (getFileHash jpeg_path)) = Ok h /\
    fst (run (fun _ => update (demo_fs "x") jpeg_path
                         (chmod 1700000000000 384 (mk_file "abc" 1652266130000))) 0
             (getFileHash jpeg_path)) = Ok h /\
    (forall cs, List.concat cs = data (mk_file "abc" 1652266130000) ->
       hash_digest_hex (fold_left hash_update cs createHash_sha1) = h) /\
    String.length h = 40%nat /\
    (forall c, In c (list_ascii_of_string h) -> In c (list_ascii_of_string hex_chars)).
Proof.
  apply (digest_deterministic _ _ _ (mk_file "abc" 1652266130000)
           (chmod 1700000000000 384 (mk_file "abc" 1652266130000))); reflexivity.
Defined.

Lemma update_same fs p i : update fs p i p = Some i.
Proof. unfold update; now rewrite String.eqb_refl. Qed.

(** C9 (counterexample): a [chmod] half a second after the last change
    moves [ctime] but not its [toUTCString] second, so the old
    [Last-Modified] still gets a 304. *)
Lemma metadata_change_counterexample :
  data (chmod 1652266130500 384 (mk_file "console.log(1)" 1652266130000))
  = data (mk_file "console.log(1)" 1652266130000) /\
  ctime (stats (chmod 1652266130500 384 (mk_file "console.log(1)" 1652266130000)))
  <> ctime (stats (mk_file "console.log(1)" 1652266130000)) /\
  serve (update (demo_fs "x") js_path (chmod 1652266130500 384 (mk_file "console.log(1)" 1652266130000)))
        test_js (req_ims "Wed, 11 May 2022 10:48:50 GMT")
  = Sent (res_write (setStatus 304 (js_response "Wed, 11 May 2022 10:48:50 GMT")) []).
Proof. split; [reflexivity | split; [discriminate | vm_compute; reflexivity]]. Qed.

(** C9 (amended): [/test.js] never consults [mtime]; its validator is the
    [toUTCString] of [ctime].  After a metadata-only change ([chmod] at
    [now]), a request echoing the old [Last-Modified] gets a fresh 200 when
    [toUTCString now] differs from the old value, and still a 304 when the
    change falls in the same second. *)
Theorem last_modified_is_ctime fs ino req now m
  (Hf : fs js_path = Some ino) (Hok : fault ino = None)
  (Hreq : req_header req "if-modified-since" = Some (UTC.toUTCString (ctime (stats ino)))) :
  (forall t req',
     serve (update fs js_path
              {| data := data ino;
                 stats := {| mtime := t; ctime := ctime (stats ino); mode := mode (stats ino) |};
                 fault := fault ino |}) test_js req'
     = serve fs test_js req') /\
  (UTC.toUTCString now <> UTC.toUTCString (ctime (stats ino)) ->
     serve (update fs js_path (chmod now m ino)) test_js req
     = Sent (res_write (js_response (UTC.toUTCString now)) (data ino))) /\
  (UTC.toUTCString now = UTC.toUTCString (ctime (stats ino)) ->
     serve (update fs js_path (chmod now m ino)) test_js req
     = Sent (res_write (setStatus 304 (js_response (UTC.toUTCString now))) [])).
Proof.
  split; [|split].
  - intros t req'.
    erewrite test_js_serve; [| apply update_same | exact Hok].
    rewrite (test_js_serve _ _ _ Hf Hok). reflexivity.
  - intro Hne.
    erewrite test_js_serve; [| apply update_same | exact Hok]; cbn [stats ctime chmod data].
    rewrite Hreq.
    destruct (strict_eq _ _) eqn:E; [|reflexivity].
    apply strict_eq_spec in E. injection E as E. congruence.
  - intro Heq.
    erewrite test_js_serve; [| apply update_same | exact Hok]; cbn [stats ctime chmod data].
    rewrite Hreq, Heq, (proj2 (strict_eq_spec _ _) eq_refl); reflexivity.
Qed.

Lemma last_modified_is_ctime_witness :
  (forall t req',
     serve (update (demo_fs "x") js_path
              {| data := data (mk_file "console.log(1)" 1652266130000);
                 stats := {| mtime := t; ctime := 1652266130000; mode := 420 |};
                 fault := None |}) test_js req'
     = serve (demo_fs "x") test_js req') /\
  (UTC.toUTCString 1652266131000 <> UTC.toUTCString 1652266130000 ->
     serve (update (demo_fs "x") js_path (chmod 1652266131000 384 (mk_file "console.log(1)" 1652266130000)))
       test_js (req_ims "Wed, 11 May 2022 10:48:50 GMT")
     = Sent (res_write (js_response (UTC.toUTCString 1652266131000))
               (data (mk_file "console.log(1)" 1652266130000)))) /\
  (UTC.toUTCString 1652266131000 = UTC.toUTCString 1652266130000 ->
     serve (update (demo_fs "x") js_path (chmod 1652266131000 384 (mk_file "console.log(1)" 1652266130000)))
       test_js (req_ims "Wed, 11 May 2022 10:48:50 GMT")
     = Sent (res_write (setStatus 304 (js_response (UTC.toUTCString 1652266131000))) [])).
Proof.
  apply (last_modified_is_ctime (demo_fs "x") (mk_file "console.log(1)" 1652266130000));
    vm_compute; reflexivity.
Defined.

(** C10: every response [/cache_policy.jpeg] sends, the 304s included,
    carries both an [ETag] and [Cache-Control: public, max-age=10]. *)
Theorem jpeg_headers_always env req r tr
  (Hrun : run env 0 (cache_policy_jpeg req) = (Sent r, tr)) :
  (statusCode r = 200 \/ statusCode r = 304) /\
  getHeader "ETag" r <> None /\
  getHeader "Cache-Control" r = Some "public, max-age=10"%string.
Proof.
  destruct (jpeg_sent _ _ _ _ Hrun) as (i & _ & [-> | [d ->]]);
    repeat split; auto; discriminate.
Qed.

Lemma jpeg_headers_always_witness :
  (statusCode jpeg_changed_response = 200 \/ statusCode jpeg_changed_response = 304) /\
  getHeader "ETag" jpeg_changed_response <> None /\
  getHeader "Cache-Control" jpeg_changed_response = Some "public, max-age=10"%string.
Proof.
  apply (jpeg_headers_always (snapshots (demo_fs "abc") (demo_fs "abd")) req_plain _
           [read_event jpeg_path; read_event jpeg_path]).
  vm_compute; reflexivity.
Defined.

(** ** Further properties of app.js *)

Lemma readFile_ok_inv fs p c :
  readFile fs p = Ok c -> exists i, fs p = Some i /\ fault i = None /\ c = data i.
Proof.
  unfold readFile; destruct (fs p) as [i|]; [|discriminate].
  destruct (fault i) eqn:F; [discriminate|]. intros [= <-]; eauto.
Qed.

(** [/] sends the file as [text/html] with status 200 and no caching
    header at all, whatever the request, after a single read. *)
Theorem root_no_cache env req r tr
  (Hrun : run env 0 (root req) = (Sent r, tr)) :
  tr = [{| ev_op := OpReadFile; ev_path := index_path; ev_ok := true |}] /\
  (exists i, env 0%nat index_path = Some i /\ fault i = None /\ body r = data i) /\
  statusCode r = 200 /\
  getHeader "Content-Type" r = Some "text/html"%string /\
  getHeader "Cache-Control" r = None /\ getHeader "Last-Modified" r = None /\
  getHeader "ETag" r = None.
Proof.
  unfold root, asyncReadFile, resolve, index_path in *; cbn in Hrun.
  destruct (readFile (env 0%nat) "./assets/index.html"%string) as [c|e] eqn:E;
    cbn in Hrun; [|discriminate].
  injection Hrun as <- <-.
  destruct (readFile_ok_inv _ _ _ E) as (i & Hi & Hf & ->).
  repeat split; eauto.
Qed.

Lemma root_no_cache_witness :
  [{| ev_op := OpReadFile; ev_path := index_path; ev_ok := true |}]
  = [{| ev_op := OpReadFile; ev_path := index_path; ev_ok := true |}] /\
  (exists i, update (demo_fs "x") index_path (mk_file "<html></html>" 0) index_path = Some i /\
     fault i = None /\
     body (res_write (setHeader "Content-Type" "text/html" res0) (list_byte_of_string "<html></html>"))
     = data i) /\
  statusCode (res_write (setHeader "Content-Type" "text/html" res0) (list_byte_of_string "<html></html>")) = 200 /\
  getHeader "Content-Type" (res_write (setHeader "Content-Type" "text/html" res0) (list_byte_of_string "<html></html>"))
  = Some "text/html"%string /\
  getHeader "Cache-Control" (res_write (setHeader "Content-Type" "text/html" res0) (list_byte_of_string "<html></html>")) = None /\
  getHeader "Last-Modified" (res_write (setHeader "Content-Type" "text/html" res0) (list_byte_of_string "<html></html>")) = None /\
  getHeader "ETag" (res_write (setHeader "Content-Type" "text/html" res0) (list_byte_of_string "<html></html>")) = None.
Proof.
  apply (root_no_cache (fun _ => update (demo_fs "x") index_path (mk_file "<html></html>" 0)) req_plain).
  vm_compute; reflexivity.
Defined.




(** [/test.js] answers a 304 from the metadata alone, without reading the
    file; a 200 reads it after the stat.  [Last-Modified] always comes from
    the stat. *)
Theorem test_js_accesses env req r tr
  (Hrun : run env 0 (test_js req) = (Sent r, tr)) :
  exists i, env 0%nat js_path = Some i /\
    getHeader "Last-Modified" r = Some (UTC.toUTCString (ctime (stats i))) /\
    ((statusCode r = 304 /\ body r = [] /\
      tr = [{| ev_op := OpStat; ev_path := js_path; ev_ok := true |}]) \/
     (statusCode r = 200 /\
      tr = [{| ev_op := OpStat; ev_path := js_path; ev_ok := true |};
            {| ev_op := OpReadFile; ev_path := js_path; ev_ok := true |}] /\
      exists j, env 1%nat js_path = Some j /\ fault j = None /\ body r = data j)).
Proof.
  unfold test_js, asyncReadFile, resolve, js_path in *; cbn in Hrun.
  unfold statSync in Hrun.
  destruct (env 0%nat "./assets/test.js"%string) as [i|] eqn:E0; cbn in Hrun; [|discriminate].
  exists i; split; [reflexivity|].
  destruct (strict_eq _ _); cbn in Hrun.
  - injection Hrun as <- <-. split; [reflexivity|]. left; repeat split.
  - destruct (readFile (env 1%nat) "./assets/test.js"%string) as [c|e] eqn:E1;
      cbn in Hrun; [|discriminate].
    injection Hrun as <- <-. split; [reflexivity|].
    destruct (readFile_ok_inv _ _ _ E1) as (j & Hj & Hfj & ->).
    right; repeat split; eauto.
Qed.

Lemma test_js_accesses_witness :
  exists i, demo_fs "x" js_path = Some i /\
    getHeader "Last-Modified" (res_write (setStatus 304 (js_response "Wed, 11 May 2022 10:48:50 GMT")) [])
    = Some (UTC.toUTCString (ctime (stats i))) /\
    ((statusCode (res_write (setStatus 304 (js_response "Wed, 11 May 2022 10:48:50 GMT")) []) = 304 /\
      body (res_write (setStatus 304 (js_response "Wed, 11 May 2022 10:48:50 GMT")) []) = [] /\
      [{| ev_op := OpStat; ev_path := js_path; ev_ok := true |}]
      = [{| ev_op := OpStat; ev_path := js_path; ev_ok := true |}]) \/
     (statusCode (res_write (setStatus 304 (js_response "Wed, 11 May 2022 10:48:50 GMT")) []) = 200 /\
      [{| ev_op := OpStat; ev_path := js_path; ev_ok := true |}]
      = [{| ev_op := OpStat; ev_path := js_path; ev_ok := true |};
         {| ev_op := OpReadFile; ev_path := js_path; ev_ok := true |}] /\
      exists j, demo_fs "x" js_path = Some j /\ fault j = None /\
        body (res_write (setStatus 304 (js_response "Wed, 11 May 2022 10:48:50 GMT")) []) = data j)).
Proof.
  apply (test_js_accesses (fun _ => demo_fs "x") (req_ims "Wed, 11 May 2022 10:48:50 GMT")).
  vm_compute; reflexivity.
Defined.

Lemma mod_day_split u : u mod 86400000 = 1000 * ((u / 1000) mod 86400) + u mod 1000.
Proof.
  pose proof (Z.div_mod u 1000 ltac:(lia)) as H1.
  pose proof (Z.div_mod (u / 1000) 86400 ltac:(lia)) as H2.
  pose proof (Z.mod_pos_bound u 1000 ltac:(lia)).
  pose proof (Z.mod_pos_bound (u / 1000) 86400 ltac:(lia)).
  symmetry; apply Z.mod_unique_pos with (q := (u / 1000) / 86400); lia.
Qed.

Lemma ms_div u k : 0 < k -> (u mod 86400000) / (1000 * k) = ((u / 1000) mod 86400) / k.
Proof.
  intro Hk. rewrite mod_day_split, <- Z.div_div by lia.
  f_equal. rewrite Z.mul_comm, Z.div_add_l by lia.
  rewrite (Z.div_small (u mod 1000) 1000) by (apply Z.mod_pos_bound; lia). lia.
Qed.

(** [toUTCString] only sees whole seconds of a valid time value. *)
Lemma toUTCString_second t :
  Z.abs t <= 8640000000000000 ->
  UTC.toUTCString t =
    let s := t / 1000 in
    let day := s / 86400 in
    let '(y, m, d) := UTC.civil_from_days day in
    (UTC.day_name ((day + 4) mod 7) ++ ", " ++ UTC.dec_pad 2 d ++ " " ++ UTC.month_name m
     ++ " " ++ UTC.year_string y ++ " " ++ UTC.dec_pad 2 ((s mod 86400) / 3600) ++ ":"
     ++ UTC.dec_pad 2 (((s mod 86400) / 60) mod 60) ++ ":"
     ++ UTC.dec_pad 2 ((s mod 86400) mod 60) ++ " GMT")%string.
Proof.
  intro Ht. unfold UTC.toUTCString, UTC.msPerDay.
  replace (8640000000000000 <? Z.abs t) with false by (symmetry; apply Z.ltb_ge; lia).
  cbv zeta.
  replace (t / 86400000) with (t / 1000 / 86400) by (rewrite Z.div_div by lia; reflexivity).
  change 3600000 with (1000 * 3600); change 60000 with (1000 * 60).
  rewrite !ms_div by lia.
  replace (t mod 86400000 / 1000) with (t / 1000 mod 86400)
    by (pose proof (ms_div t 1 ltac:(lia)) as H;
        rewrite Z.mul_1_r, Z.div_1_r in H; symmetry; exact H).
  reflexivity.
Qed.

Lemma toUTCString_same_second t t' :
  Z.abs t <= 8640000000000000 -> Z.abs t' <= 8640000000000000 ->
  t / 1000 = t' / 1000 -> UTC.toUTCString t = UTC.toUTCString t'.
Proof.
  intros Ht Ht' Hs.
  rewrite (toUTCString_second t Ht), (toUTCString_second t' Ht'), Hs.
  reflexivity.
Qed.

(** [/test.js] cannot tell apart two [ctime]s within the same second:
    with the file's [ctime] moved inside its second, every request gets
    the same answer. *)
Theorem test_js_second_granularity fs ino t req
  (Hf : fs js_path = Some ino)
  (Ht : Z.abs t <= 8640000000000000)
  (Hc : Z.abs (ctime (stats ino)) <= 8640000000000000)
  (Hs : t / 1000 = ctime (stats ino) / 1000) :
  serve (update fs js_path
           {| data := data ino;
              stats := {| mtime := mtime (stats ino); ctime := t; mode := mode (stats ino) |};
              fault := fault ino |}) test_js req
  = serve fs test_js req.
Proof.
  unfold serve, test_js, js_path, update in *; cbn; unfold statSync; rewrite Hf; cbn.
  rewrite (toUTCString_same_second t (ctime (stats ino)) Ht Hc Hs).
  destruct (strict_eq _ _); cbn; [reflexivity|].
  unfold readFile, resolve; cbn; rewrite Hf; cbn.
  destruct (fault ino); reflexivity.
Qed.

Lemma test_js_second_granularity_witness :
  serve (update (demo_fs "x") js_path
           {| data := data (mk_file "console.log(1)" 1652266130000);
              stats := {| mtime := 1652266130000; ctime := 1652266130999; mode := 420 |};
              fault := None |}) test_js (req_ims "Wed, 11 May 2022 10:48:50 GMT")
  = serve (demo_fs "x") test_js (req_ims "Wed, 11 May 2022 10:48:50 GMT").
Proof.
  apply (test_js_second_granularity (demo_fs "x") (mk_file "console.log(1)" 1652266130000));
    [reflexivity | vm_compute; discriminate | vm_compute; discriminate | vm_compute; reflexivity].
Defined.

(** Every response a route sends carries that route's media type; only the
    two validated routes ever send a 304, and a 304 has an empty body. *)
Theorem route_content_type env req h ct r tr
  (Hh : In (h, ct) [(root, "text/html"); (test_css, "text/css");
                    (test_js, "text/javascript"); (cache_policy_jpeg, "image/jpeg")]%string)
  (Hrun : run env 0 (h req) = (Sent r, tr)) :
  getHeader "Content-Type" r = Some ct /\
  (statusCode r = 200 \/
   (statusCode r = 304 /\ body r = [] /\ (h = test_js \/ h = cache_policy_jpeg))).
Proof.
  destruct Hh as [[= <- <-] | [[= <- <-] | [[= <- <-] | [[= <- <-] | []]]]].
  - unfold root, asyncReadFile, resolve in Hrun; cbn in Hrun.
    destruct (readFile _ _); cbn in Hrun; [|discriminate].
    injection Hrun as <- _. split; [reflexivity | left; reflexivity].
  - unfold test_css, asyncReadFile, resolve in Hrun; cbn in Hrun.
    destruct (readFile _ _); cbn in Hrun; [|discriminate].
    injection Hrun as <- _. split; [reflexivity | left; reflexivity].
  - destruct (test_js_sent _ _ _ _ Hrun) as (st & _ & [-> | [d ->]]).
    + split; [reflexivity | right; repeat split; auto].
    + split; [reflexivity | left; reflexivity].
  - destruct (jpeg_sent _ _ _ _ Hrun) as (i & _ & [-> | [d ->]]).
    + split; [reflexivity | right; repeat split; auto].
    + split; [reflexivity | left; reflexivity].
Qed.

Lemma route_content_type_witness :
  getHeader "Content-Type" (res_write (setStatus 304 (js_response "Wed, 11 May 2022 10:48:50 GMT")) [])
  = Some "text/javascript"%string /\
  (statusCode (res_write (setStatus 304 (js_response "Wed, 11 May 2022 10:48:50 GMT")) []) = 200 \/
   (statusCode (res_write (setStatus 304 (js_response "Wed, 11 May 2022 10:48:50 GMT")) []) = 304 /\
    body (res_write (setStatus 304 (js_response "Wed, 11 May 2022 10:48:50 GMT")) []) = [] /\
    (test_js = test_js \/ test_js = cache_policy_jpeg))).
Proof.
  apply (route_content_type (fun _ => demo_fs "x") (req_ims "Wed, 11 May 2022 10:48:50 GMT")
           test_js "text/javascript"%string _
           [{| ev_op := OpStat; ev_path := js_path; ev_ok := true |}]).
  - right; right; left; reflexivity.
  - vm_compute; reflexivity.
Defined.

(** When the second read of [/cache_policy.jpeg] fails while it is piped,
    the aborted 200 response (with its [ETag]) holds a prefix of the file
    as that read saw it, and nothing else. *)
Theorem jpeg_abort_prefix env req e r tr
  (Hrun : run env 0 (cache_policy_jpeg req) = (Aborted e r, tr)) :
  statusCode r = 200 /\ getHeader "ETag" r <> None /\
  tr = [read_event jpeg_path; {| ev_op := OpReadStream; ev_path := jpeg_path; ev_ok := false |}] /\
  exists rest, body r ++ rest = match env 1%nat jpeg_path with Some i => data i | None => [] end.
Proof.
  unfold cache_policy_jpeg, getFileHash, resolve, jpeg_path in *; cbn in Hrun.
  destruct (createReadStream (env 0%nat) "./assets/cache_policy.jpeg") as [cs0 [e0|]];
    cbn in Hrun; [discriminate|].
  destruct (strict_eq _ _); cbn in Hrun; [discriminate|].
  destruct (createReadStream (env 1%nat) "./assets/cache_policy.jpeg") as [cs1 [e1|]] eqn:E1;
    cbn in Hrun; [|discriminate].
  injection Hrun as <- <- <-.
  split; [reflexivity|]; split; [discriminate|]; split; [reflexivity|].
  cbn [body res_write jpeg_response setHeader res0 app].
  unfold createReadStream in E1.
  destruct (env 1%nat "./assets/cache_policy.jpeg"%string) as [i|].
  - destruct (fault i) as [k|]; [injection E1 as <- _ | discriminate E1].
    exists (skipn k (data i)). rewrite concat_chunks. apply firstn_skipn.
  - injection E1 as <- _. exists []; reflexivity.
Qed.

Lemma jpeg_abort_prefix_witness :
  statusCode (res_write (jpeg_response (content_digest (list_byte_of_string "abc")))
                        (list_byte_of_string "a")) = 200 /\
  getHeader "ETag" (res_write (jpeg_response (content_digest (list_byte_of_string "abc")))
                              (list_byte_of_string "a")) <> None /\
  [read_event jpeg_path; {| ev_op := OpReadStream; ev_path := jpeg_path; ev_ok := false |}]
  = [read_event jpeg_path; {| ev_op := OpReadStream; ev_path := jpeg_path; ev_ok := false |}] /\
  exists rest, body (res_write (jpeg_response (content_digest (list_byte_of_string "abc")))
                               (list_byte_of_string "a")) ++ rest
  = match snapshots (demo_fs "abc")
            (update (demo_fs "abc") jpeg_path
               {| data := list_byte_of_string "abd"; stats := stats (mk_file "" 0);
                  fault := Some 1%nat |}) 1%nat jpeg_path
    with Some i => data i | None => [] end.
Proof.
  apply (jpeg_abort_prefix
           (snapshots (demo_fs "abc")
              (update (demo_fs "abc") jpeg_path
                 {| data := list_byte_of_string "abd"; stats := stats (mk_file "" 0);
                    fault := Some 1%nat |}))
           req_plain EIO).
  vm_compute; reflexivity.
Defined.
